(** * GRAFIMO: auxiliary functions (grafimo/utils.py)

    A shallow embedding of the constants and functions of [utils.py] that the
    scoring model and the hit summary rely on: the alphabet and the
    reverse-complement table, the pseudocount and the log factor,
    [almost_equal], [lg2] and [list_data], and the list, path and
    dependency helpers beside them.

    Numbers are IEEE 754 binary64 values ([np.double]), modelled by the
    primitive floats of the kernel; Python exceptions are the error side of a
    small result monad. *)

From Stdlib Require Import ZArith Floats Bool Ascii DecimalString.
From stdpp Require Import base option list strings gmap.

Set Warnings "-inexact-float".

Open Scope string_scope.

(** ** Exceptions and results *)

(** The exceptions the modelled functions can raise. *)
Inductive exn : Type :=
  | NoDataFrameException (msg : string)
  | AssertionError
  | KeyError (key : string)
  | AttributeError (attr : string)
  | InvalidSymbolError (symbol : string).

Inductive result (A : Type) : Type :=
  | Return (a : A)
  | Raise (e : exn).
Arguments Return {A} a.
Arguments Raise {A} e.

#[global] Instance result_ret : MRet result := @Return.
#[global] Instance result_bind : MBind result := fun A B f m =>
  match m with
  | Return a => f a
  | Raise e => Raise e
  end.

#[global] Instance result_fmap : FMap result := fun A B f m =>
  match m with
  | Return a => Return (f a)
  | Raise e => Raise e
  end.

(** Python's [assert]. *)
Definition assert (b : bool) : result unit :=
  if b then Return tt else Raise AssertionError.

Definition raises {A} (r : result A) : bool :=
  match r with Return _ => false | Raise _ => true end.

(** ** Constants *)

Definition DNA_ALPHABET : list string := ["A"; "C"; "G"; "T"].

Definition REV_COMPL : gmap string string :=
  <["A" := "T"]> (<["C" := "G"]> (<["G" := "C"]> (<["T" := "A"]> ∅))).

Definition PSEUDObg : float := 0.0000005%float.
Definition LOG_FACTOR : float := 1.44269504%float.

(** ** almost_equal *)

(** Python's [x > y] on doubles. *)
Definition gtb (x y : float) : bool := (y <? x)%float.

Definition almost_equal (value1 value2 slope : float) : bool :=
  if gtb (value1 - slope) value2 || (value1 + slope <? value2)%float
  then false
  else true.

(** ** lg2 *)

Section Lg2.

(** [np.log] on a double.  NumPy evaluates it for every argument: at zero and
    below it warns and yields [-inf] or [nan], it does not raise. *)
Variable np_log : float -> float.

Definition lg2 (value : float) : result float :=
  mret (np_log value * LOG_FACTOR)%float.

End Lg2.

(** ** The hit table *)

(** A cell of the table: a string (identifiers, strand, sequence), an integer
    (coordinates) or a double (score, p-value, q-value). *)
Inductive cell : Type :=
  | Str (s : string)
  | Int (z : Z)
  | Num (f : float).

(** What [list_data] reads of a [pd.DataFrame]: the labelled columns, in their
    order, each with the values [to_list] gives, and the row labels.  Column
    labels may repeat, as pandas allows.  A frame built by pandas keeps every
    column as long as its index ([aligned] below); the record does not impose
    it, since [list_data] asserts the lengths itself, and the properties that
    rest on it take [aligned] as a hypothesis. *)
Record DataFrame : Type := {
  columns : list (string * list cell);
  index : list cell
}.

(** The argument of [list_data]: a data frame, or any other object. *)
Inductive PyObject : Type :=
  | PdDataFrame (df : DataFrame)
  | OtherObject.

(** [data[name].to_list()].  No column with that label: [KeyError].  Several
    columns with that label: the selection is a [DataFrame], which has no
    [to_list]. *)
Definition getitem_to_list (data : DataFrame) (name : string) : result (list cell) :=
  match filter (fun c => c.1 = name) (columns data) with
  | [] => Raise (KeyError name)
  | [c] => Return c.2
  | _ => Raise (AttributeError "to_list")
  end.

Definition aligned (data : DataFrame) : bool :=
  forallb (fun c => length c.2 =? length (index data))%nat (columns data).

(** ** list_data *)

Definition list_data (data : PyObject) (qvalue : bool) : result (list (list cell)) :=
  match data with
  | OtherObject =>
      Raise (NoDataFrameException "DataFrame given is not an instance of pandas.DataFrame")
  | PdDataFrame data =>
      _ ← assert (length (columns data) <=? 11)%nat;
      _ ← assert (10 <=? length (columns data))%nat;
      seqnames ← getitem_to_list data "sequence_name";
      starts ← getitem_to_list data "start";
      stops ← getitem_to_list data "stop";
      scores ← getitem_to_list data "score";
      strands ← getitem_to_list data "strand";
      motifIDs ← getitem_to_list data "motif_id";
      motifNames ← getitem_to_list data "motif_alt_id";
      pvalues ← getitem_to_list data "p-value";
      sequences ← getitem_to_list data "matched_sequence";
      references ← getitem_to_list data "reference";
      (* bound only when qvalue holds, and read only then *)
      qvalues ← (if qvalue then getitem_to_list data "q-value" else Return []);
      let summary :=
        if qvalue
        then [motifIDs; motifNames; seqnames; starts; stops; strands; scores;
              pvalues; sequences; references; qvalues]
        else [motifIDs; motifNames; seqnames; starts; stops; strands; scores;
              pvalues; sequences; references] in
      let summary_len := length motifIDs in
      _ ← assert (summary_len =? length (index data))%nat;
      _ ← assert (summary_len =? length motifNames)%nat;
      _ ← assert (summary_len =? length seqnames)%nat;
      _ ← assert (summary_len =? length starts)%nat;
      _ ← assert (summary_len =? length stops)%nat;
      _ ← assert (summary_len =? length strands)%nat;
      _ ← assert (summary_len =? length scores)%nat;
      _ ← assert (summary_len =? length pvalues)%nat;
      _ ← assert (summary_len =? length sequences)%nat;
      _ ← (if qvalue then assert (summary_len =? length qvalues)%nat else Return tt);
      Return summary
  end.

(** ** The summary's schema *)

(** The field order of the summary, as the hit record lists it. *)
Definition field_order : list string :=
  ["motif_id"; "motif_alt_id"; "sequence_name"; "start"; "stop"; "strand";
   "score"; "p-value"; "matched_sequence"; "reference"].

Definition summary_fields (qvalue : bool) : list string :=
  field_order ++ (if qvalue then ["q-value"] else []).

(** The fields whose length [list_data] asserts: [motif_id] against the
    index, the others against [motif_id]; [reference] is not among them. *)
Definition checked_fields (qvalue : bool) : list string :=
  ["motif_id"; "motif_alt_id"; "sequence_name"; "start"; "stop"; "strand";
   "score"; "p-value"; "matched_sequence"] ++ (if qvalue then ["q-value"] else []).

(** Every field of the list selects exactly one column of the frame. *)
Definition has_fields (data : DataFrame) (names : list string) : bool :=
  forallb (fun name => negb (raises (getitem_to_list data name))) names.

(** A well-formed table for a call with flag [qvalue]: 10 or 11 columns,
    every field of the summary present once, every column as long as the
    index. *)
Definition well_formed (data : DataFrame) (qvalue : bool) : bool :=
  (10 <=? length (columns data))%nat && (length (columns data) <=? 11)%nat
  && has_fields data (summary_fields qvalue) && aligned data.

(** The failures of [list_data] on a data frame it rejects: a failed
    assertion (column count, column length), a field with no column
    ([KeyError]) or with several ([AttributeError]). *)
Definition SchemaViolationError (e : exn) : bool :=
  match e with
  | AssertionError | KeyError _ | AttributeError _ => true
  | _ => false
  end.

(** [b] lies in the closed interval from [a - t] to [a + t], the ends
    computed in double precision. *)
Definition in_closed_interval (a b t : float) : bool :=
  (a - t <=? b)%float && (b <=? a + t)%float.

(** ** Scoring operations that live outside utils.py *)

(** Modelled from the spec: [complement(base)], which is not defined in
    utils.py (only its table [REV_COMPL] is): the complement of a nucleotide
    per the fixed mapping, failing with [InvalidSymbolError] for any other
    symbol. *)
Definition complement (base : string) : result string :=
  match REV_COMPL !! base with
  | Some c => Return c
  | None => Raise (InvalidSymbolError base)
  end.

(** Modelled from the spec: [corrected_probability(p)], which is not defined
    in utils.py (only the pseudocount [PSEUDObg] is): [p] if [p > 0], else
    the fixed pseudocount constant. *)
Definition corrected_probability (p : float) : float :=
  if gtb p 0 then p else PSEUDObg.

(** What the checks of [lg2] assume of [np.log]: its values at 1, at 0.5 and
    at 0, and [nan] for a negative argument. *)
Record numpy_log (np_log : float -> float) : Prop := {
  log_one : np_log 1%float = 0%float;
  log_half : np_log 0.5%float = (-0.6931471805599453)%float;
  log_zero : np_log 0%float = neg_infinity;
  log_negative : forall x, (x <? 0)%float = true -> np_log x = nan
}.

(** ** Sample tables *)

Definition hit (i : Z) (name : string) : cell :=
  if String.eqb name "start" then Int (100 + i)
  else if String.eqb name "stop" then Int (110 + i)
  else if String.eqb name "score" then Num 12.5
  else if String.eqb name "p-value" then Num 0.0001
  else if String.eqb name "q-value" then Num 0.01
  else if String.eqb name "strand" then Str "+"
  else Str name.

(** A column of [n] hits under the label [name]. *)
Definition series (n : nat) (name : string) : string * list cell :=
  (name, map (fun i => hit (Z.of_nat i) name) (seq 0 n)).

Definition rows (n : nat) : list cell := map (fun i => Int (Z.of_nat i)) (seq 0 n).

(** Five hits, the ten required columns. *)
Definition hits10 : DataFrame :=
  {| columns := map (series 5) field_order; index := rows 5 |}.

(** Five hits, the ten required columns and the q-values. *)
Definition hits11 : DataFrame :=
  {| columns := map (series 5) (summary_fields true); index := rows 5 |}.

(** Twelve columns: [hits11] and one more. *)
Definition hits12 : DataFrame :=
  {| columns := columns hits11 ++ [series 5 "comment"]; index := rows 5 |}.

(** A stand-in for [np.log] with its values at the arguments [numpy_log]
    names; elsewhere it answers [nan]. *)
Definition log_at_checked (x : float) : float :=
  if (x <? 0)%float then nan
  else if (x =? 0)%float then neg_infinity
  else if (x =? 1)%float then 0%float
  else if (x =? 0.5)%float then (-0.6931471805599453)%float
  else nan.

(** ** Lists of values *)

Section ListEqual.
Context `{Countable A}.

(** [len(lst1) == len(lst2) and set(lst1) == set(lst2)], on hashable values. *)
Definition isListEqual (lst1 lst2 : list A) : bool :=
  if (length lst1 =? length lst2)%nat
     && bool_decide ((list_to_set lst1 : gset A) = list_to_set lst2)
  then true
  else false.

End ListEqual.

Section UniqueList.
Context `{EqDecision A}.

(** The loop of [unique_lst]: the elements still to visit, the values
    collected so far and their count.  It answers the collected values when
    the list is exhausted or the size limit is reached (the [break]). *)
Fixpoint unique_lst_loop (lst : list A) (size : option Z)
    (unique_lst : list A) (el_num : Z) : list A :=
  match lst with
  | [] => unique_lst
  | el :: lst =>
      let '(unique_lst, el_num) :=
        if bool_decide (el ∉ unique_lst)
        then ((unique_lst ++ [el])%list, (el_num + 1)%Z)
        else (unique_lst, el_num) in
      if match size with
         | Some size => (el_num =? size)%Z
         | None => false
         end
      then unique_lst
      else unique_lst_loop lst size unique_lst el_num
  end.

Definition unique_lst (lst : list A) (size : option Z) : result (list A) :=
  _ ← assert (0 <? length lst)%nat;
  let unique_lst := unique_lst_loop lst size [] 0 in
  _ ← assert (0 <? length unique_lst)%nat;
  Return unique_lst.

End UniqueList.

(** ** Chromosomes *)

(** [str(i)] on a natural number. *)
Definition str (i : nat) : string := NilZero.string_of_uint (Nat.to_uint i).

Definition CHROMS_LIST : list string := map str (seq 1 22) ++ ["X"; "Y"].

Definition initialize_chroms_list (args_chroms : list string) : list string :=
  match args_chroms with
  | [] => CHROMS_LIST
  | _ => args_chroms
  end.

(** ** External dependencies *)

Definition EXT_DEPS : list string := ["tabix"; "vg"; "dot"].

Section CheckDeps.

(** [shutil.which]: the path of an executable, or [None]. *)
Variable which : string -> option string.

Definition is_not_None {B} (o : option B) : bool :=
  match o with Some _ => true | None => false end.

(** The loop of [check_deps] over the dependencies still to probe. *)
Fixpoint check_deps_loop (deps : list string) (sat : bool)
    (deps_not_sats : list string) : bool * list string :=
  match deps with
  | [] => (sat, deps_not_sats)
  | dep :: deps =>
      if negb (is_not_None (which dep))
      then check_deps_loop deps false (deps_not_sats ++ [dep])%list
      else check_deps_loop deps sat deps_not_sats
  end.

Definition check_deps : bool * list string :=
  check_deps_loop EXT_DEPS true [].

End CheckDeps.

(** ** Motif file names and paths *)

(** [s.split(sep)] for a separator of one character: the pieces between the
    occurrences of the separator, never an empty list. *)
Fixpoint split (sep : Ascii.ascii) (s : string) : list string :=
  match s with
  | EmptyString => [EmptyString]
  | String c s =>
      if Ascii.eqb c sep then EmptyString :: split sep s
      else match split sep s with
           | piece :: pieces => String c piece :: pieces
           | [] => [String c EmptyString]
           end
  end.

(** The argument of the file format checks: a [str], or any other object. *)
Inductive MotifFile : Type :=
  | PyStr (s : string)
  | NotStr.

(** [motif_file and isinstance(motif_file, str)]: a string that is not empty. *)
Definition given_as_path (motif_file : MotifFile) : option string :=
  match motif_file with
  | PyStr s => if String.eqb s "" then None else Some s
  | NotStr => None
  end.

Definition isJaspar_ff (motif_file : MotifFile) : bool :=
  match given_as_path motif_file with
  | Some s =>
      let ff := last (split "."%char s) in
      if bool_decide (ff = Some "jaspar") then true else false
  | None => false
  end.

Definition isMEME_ff (motif_file : MotifFile) : bool :=
  match given_as_path motif_file with
  | Some s =>
      let ff := last (split "."%char s) in
      if bool_decide (ff = Some "meme") then true else false
  | None => false
  end.

(** [s[-1:]]: the last character as a string, empty for the empty string. *)
Fixpoint last_slice (s : string) : string :=
  match s with
  | EmptyString => EmptyString
  | String c EmptyString => s
  | String _ s => last_slice s
  end.

Definition correct_path (path path_id file_format : string) : string :=
  if String.eqb (last_slice path) "/"
  then path +:+ path_id +:+ file_format
  else path +:+ "/" +:+ path_id +:+ file_format.

(** * Properties *)

(** ** The result monad *)

Lemma bind_Return_inv {A B} (m : result A) (f : A -> result B) (b : B) :
  m ≫= f = Return b -> exists a, m = Return a /\ f a = Return b.
Proof. destruct m as [a|e]; simpl; [eauto | discriminate]. Qed.

Lemma bind_Raise_inv {A B} (m : result A) (f : A -> result B) (e : exn) :
  m ≫= f = Raise e -> m = Raise e \/ exists a, m = Return a /\ f a = Raise e.
Proof. destruct m as [a|e']; simpl; [eauto | intros [= ->]; auto]. Qed.

Lemma assert_Return_inv (b : bool) (u : unit) : assert b = Return u -> b = true.
Proof. destruct b; [reflexivity | discriminate]. Qed.

Lemma assert_Raise_inv (b : bool) (e : exn) :
  assert b = Raise e -> b = false /\ e = AssertionError.
Proof. destruct b; simpl; [discriminate | intros [= <-]; auto]. Qed.

Lemma raises_false {A} (r : result A) : raises r = false -> exists a, r = Return a.
Proof. destruct r; [eauto | discriminate]. Qed.

(** ** Column selection *)

Lemma getitem_to_list_Return data name col :
  getitem_to_list data name = Return col -> (name, col) ∈ columns data.
Proof.
  unfold getitem_to_list.
  destruct (filter _ _) as [|c [|c' l]] eqn:Hf; try discriminate.
  intros [= <-].
  assert (Hc : c ∈ filter (fun c => c.1 = name) (columns data))
    by (rewrite Hf; apply list_elem_of_here).
  apply list_elem_of_filter in Hc as [Hn Hc]. simpl in Hn. subst name.
  by destruct c.
Qed.

Lemma getitem_to_list_Raise data name e :
  getitem_to_list data name = Raise e -> SchemaViolationError e = true.
Proof.
  unfold getitem_to_list.
  destruct (filter _ _) as [|c [|c' l]]; intros [= <-]; reflexivity.
Qed.

Lemma getitem_to_list_absent data name :
  name ∉ (columns data).*1 -> getitem_to_list data name = Raise (KeyError name).
Proof.
  intros Hn. unfold getitem_to_list.
  destruct (filter _ _) as [|c l] eqn:Hf; [reflexivity|].
  exfalso. apply Hn.
  assert (Hc : c ∈ filter (fun c => c.1 = name) (columns data))
    by (rewrite Hf; apply list_elem_of_here).
  apply list_elem_of_filter in Hc as [Hc1 Hc]. simpl in Hc1. subst name.
  by apply list_elem_of_fmap_2.
Qed.

Lemma aligned_column data name col :
  aligned data = true -> (name, col) ∈ columns data ->
  length col = length (index data).
Proof.
  unfold aligned. rewrite forallb_forall. intros Ha Hin.
  apply list_elem_of_In in Hin. apply Ha in Hin. simpl in Hin.
  by apply Nat.eqb_eq.
Qed.

(** ** What a call of list_data did *)

Ltac bind_inv H :=
  let x := fresh "col" in
  let Hx := fresh "Hcol" in
  apply bind_Return_inv in H as (x & Hx & H).

Ltac assert_inv H :=
  let u := fresh "u" in
  let Hu := fresh "Hlen" in
  apply bind_Return_inv in H as (u & Hu & H);
  apply assert_Return_inv in Hu.

(** A call that returns passed every assertion and found every field. *)
Lemma list_data_Return_inv data qvalue summary :
  list_data (PdDataFrame data) qvalue = Return summary ->
  10 <= length (columns data) <= 11 /\
  Forall2 (fun name col => getitem_to_list data name = Return col)
          (summary_fields qvalue) summary /\
  (forall name col, name ∈ checked_fields qvalue ->
     getitem_to_list data name = Return col -> length col = length (index data)).
Proof.
  unfold list_data. intros H.
  do 2 assert_inv H. do 11 bind_inv H. cbv zeta in H. do 9 assert_inv H.
  apply Nat.leb_le in Hlen, Hlen0.
  split; [lia|].
  destruct qvalue; [assert_inv H|]; simpl in H; injection H as <-;
    repeat match goal with Hl : (_ =? _)%nat = true |- _ => apply Nat.eqb_eq in Hl end;
    (split; [repeat (constructor; [assumption|]); constructor|]);
    intros name c Hin Hget; unfold checked_fields in Hin; simpl in Hin;
    repeat (apply elem_of_cons in Hin as [->|Hin]; [congruence|]);
    by apply elem_of_nil in Hin.
Qed.

Ltac elem_of_fields :=
  apply list_elem_of_In; unfold summary_fields, checked_fields, field_order;
  simpl; tauto.

Ltac raise_inv H :=
  apply bind_Raise_inv in H as [H | (? & _ & H)];
  [ first [ discriminate H
          | apply assert_Raise_inv in H as [_ ->]; by left
          | right; eexists; split; [|exact H]; elem_of_fields ]
  | ].

(** A call on a data frame that raises failed an assertion or failed to
    select one of the fields it reads. *)
Lemma list_data_Raise_inv data qvalue e :
  list_data (PdDataFrame data) qvalue = Raise e ->
  e = AssertionError \/
  exists name, name ∈ summary_fields qvalue /\ getitem_to_list data name = Raise e.
Proof.
  unfold list_data. intros H.
  destruct qvalue; cbv beta iota zeta in H; repeat raise_inv H; discriminate H.
Qed.

Lemma list_data_Raise_schema data qvalue e :
  list_data (PdDataFrame data) qvalue = Raise e -> SchemaViolationError e = true.
Proof.
  intros [->|(name & _ & H)]%list_data_Raise_inv; [reflexivity|].
  by eapply getitem_to_list_Raise.
Qed.

(** A call on a data frame with fewer than 10 or more than 11 columns stops
    at the first assertions. *)
Lemma list_data_column_count data qvalue :
  length (columns data) < 10 \/ 11 < length (columns data) ->
  list_data (PdDataFrame data) qvalue = Raise AssertionError.
Proof.
  intros Hn. unfold list_data.
  destruct (Nat.leb_spec (length (columns data)) 11) as [H11|H11]; [|reflexivity].
  destruct (Nat.leb_spec 10 (length (columns data))) as [H10|H10]; [|reflexivity].
  lia.
Qed.

Ltac have_field Hf name :=
  let c := fresh "c" in
  let Hc := fresh "Hc" in
  let Hl := fresh "Hl" in
  destruct (Hf name) as (c & Hc & Hl); [elem_of_fields|];
  try specialize (Hl ltac:(elem_of_fields)).

(** A call returns the selected columns as soon as the column count is 10 or
    11, every field of the summary selects a column and the checked ones are
    as long as the index. *)
Lemma list_data_Return_intro data qvalue :
  10 <= length (columns data) <= 11 ->
  (forall name, name ∈ summary_fields qvalue ->
     exists col, getitem_to_list data name = Return col /\
       (name ∈ checked_fields qvalue -> length col = length (index data))) ->
  exists summary,
    list_data (PdDataFrame data) qvalue = Return summary /\
    Forall2 (fun name col => getitem_to_list data name = Return col)
            (summary_fields qvalue) summary.
Proof.
  intros [H10 H11] Hf.
  have_field Hf "motif_id". have_field Hf "motif_alt_id".
  have_field Hf "sequence_name". have_field Hf "start". have_field Hf "stop".
  have_field Hf "strand". have_field Hf "score". have_field Hf "p-value".
  have_field Hf "matched_sequence". have_field Hf "reference".
  unfold list_data.
  rewrite (leb_correct _ _ H11), (leb_correct _ _ H10).
  destruct qvalue.
  - have_field Hf "q-value".
    rewrite Hc, Hc0, Hc1, Hc2, Hc3, Hc4, Hc5, Hc6, Hc7, Hc8, Hc9.
    cbn [mbind result_bind assert].
    rewrite Hl, Hl0, Hl1, Hl2, Hl3, Hl4, Hl5, Hl6, Hl7, Hl9.
    rewrite !Nat.eqb_refl. cbn [mbind result_bind assert].
    eexists; split; [reflexivity|]. repeat (constructor; [assumption|]). constructor.
  - rewrite Hc, Hc0, Hc1, Hc2, Hc3, Hc4, Hc5, Hc6, Hc7, Hc8.
    cbn [mbind result_bind assert].
    rewrite Hl, Hl0, Hl1, Hl2, Hl3, Hl4, Hl5, Hl6, Hl7.
    rewrite !Nat.eqb_refl. cbn [mbind result_bind assert].
    eexists; split; [reflexivity|]. repeat (constructor; [assumption|]). constructor.
Qed.

Lemma has_fields_Return data names name :
  has_fields data names = true -> name ∈ names ->
  exists col, getitem_to_list data name = Return col.
Proof.
  unfold has_fields. rewrite forallb_forall. intros Hf Hin.
  apply list_elem_of_In, Hf, negb_true_iff in Hin. by apply raises_false.
Qed.

Lemma well_formed_inv data qvalue :
  well_formed data qvalue = true ->
  10 <= length (columns data) <= 11 /\
  has_fields data (summary_fields qvalue) = true /\ aligned data = true.
Proof.
  unfold well_formed. rewrite !andb_true_iff, !Nat.leb_le. tauto.
Qed.

Lemma well_formed_Return data qvalue :
  well_formed data qvalue = true ->
  exists summary,
    list_data (PdDataFrame data) qvalue = Return summary /\
    Forall2 (fun name col => getitem_to_list data name = Return col)
            (summary_fields qvalue) summary.
Proof.
  intros (Hn & Hf & Ha)%well_formed_inv.
  apply list_data_Return_intro; [assumption|].
  intros name Hin. destruct (has_fields_Return _ _ _ Hf Hin) as [col Hcol].
  exists col. split; [assumption|]. intros _.
  eapply aligned_column; [eassumption|]. by apply getitem_to_list_Return.
Qed.

Lemma NoDup_summary_fields qvalue : NoDup (summary_fields qvalue).
Proof. destruct qvalue; apply (bool_decide_unpack _); reflexivity. Qed.

(** Fields that each select one column label distinct columns, so the frame
    has at least as many columns as there are fields. *)
Lemma has_fields_columns data names :
  has_fields data names = true -> NoDup names ->
  length names <= length (columns data).
Proof.
  intros Hf Hnd.
  rewrite <- (length_fmap fst (columns data)).
  apply submseteq_length, NoDup_submseteq; [assumption|].
  intros name Hin.
  destruct (has_fields_Return _ _ _ Hf Hin) as [col Hcol].
  apply getitem_to_list_Return in Hcol.
  by apply (list_elem_of_fmap_2 fst) in Hcol.
Qed.

(** With 10 or 11 columns, the call fails at the first field that does not
    select a column, before any length is compared. *)
Lemma list_data_field_raises data qvalue :
  10 <= length (columns data) <= 11 ->
  has_fields data (summary_fields qvalue) = false ->
  exists name e,
    name ∈ summary_fields qvalue /\
    getitem_to_list data name = Raise e /\
    list_data (PdDataFrame data) qvalue = Raise e.
Proof.
  intros [H10 H11] Hf. unfold list_data.
  rewrite (leb_correct _ _ H11), (leb_correct _ _ H10).
  unfold has_fields in Hf.
  destruct qvalue; cbn [mbind result_bind assert];
    repeat match goal with
    | |- context [getitem_to_list data ?name ≫= _] =>
        let Hget := fresh "Hget" in
        destruct (getitem_to_list data name) as [?|e] eqn:Hget;
        [ cbn [mbind result_bind]
        | exists name, e; split; [elem_of_fields|]; split; [assumption | reflexivity] ]
    end;
    simpl in Hf;
    repeat match goal with Hget : getitem_to_list _ _ = _ |- _ => rewrite Hget in Hf; clear Hget end;
    discriminate Hf.
Qed.

(** ** The hit summary *)

(** C1.  On a well-formed table, [list_data] returns the columns selected by
    the fields motif_id, motif_alt_id, sequence_name, start, stop, strand,
    score, p-value, matched_sequence, reference, in that order, followed by
    the q-value column exactly when [qvalue] is true. *)
Theorem list_data_field_order data qvalue :
  well_formed data qvalue = true ->
  exists summary,
    list_data (PdDataFrame data) qvalue = Return summary /\
    Forall2 (fun name col => getitem_to_list data name = Return col)
      (["motif_id"; "motif_alt_id"; "sequence_name"; "start"; "stop"; "strand";
        "score"; "p-value"; "matched_sequence"; "reference"]
       ++ (if qvalue then ["q-value"] else []))
      summary /\
    length summary = (if qvalue then 11 else 10).
Proof.
  intros Hwf.
  destruct (well_formed_Return _ _ Hwf) as (summary & Hrun & Hcols).
  exists summary. split; [assumption|]. split; [assumption|].
  apply Forall2_length in Hcols. rewrite <- Hcols. by destruct qvalue.
Qed.

Lemma list_data_field_order_witness :
  well_formed hits11 true = true /\
  exists summary,
    list_data (PdDataFrame hits11) true = Return summary /\
    Forall2 (fun name col => getitem_to_list hits11 name = Return col)
      (["motif_id"; "motif_alt_id"; "sequence_name"; "start"; "stop"; "strand";
        "score"; "p-value"; "matched_sequence"; "reference"] ++ ["q-value"])
      summary /\
    length summary = 11.
Proof. split; [reflexivity | apply (list_data_field_order hits11 true); reflexivity]. Defined.

(** C2, as the code has it.  A table with fewer than 10 or more than 11
    columns is rejected by an assertion, whatever the flag; a table with 10
    columns is rejected when q-values are requested, since the eleven fields
    cannot all select a column: the selection of one of them fails.  (A table
    with 11 columns is not rejected for its count when q-values are not
    requested.) *)
Theorem list_data_column_count_checked data qvalue :
  (length (columns data) < 10 \/ 11 < length (columns data) ->
   list_data (PdDataFrame data) qvalue = Raise AssertionError) /\
  (length (columns data) = 10 -> qvalue = true ->
   exists name e,
     name ∈ summary_fields true /\
     getitem_to_list data name = Raise e /\
     list_data (PdDataFrame data) qvalue = Raise e /\
     SchemaViolationError e = true).
Proof.
  split; [apply list_data_column_count|].
  intros Hn ->.
  destruct (has_fields data (summary_fields true)) eqn:Hf.
  - apply has_fields_columns in Hf; [|apply NoDup_summary_fields].
    simpl in Hf. lia.
  - destruct (list_data_field_raises data true) as (name & e & Hin & Hget & Hrun);
      [lia | assumption |].
    exists name, e. repeat split; try assumption.
    by eapply getitem_to_list_Raise.
Qed.

Lemma list_data_column_count_checked_witness :
  list_data (PdDataFrame hits12) true = Raise AssertionError /\
  exists name e,
    name ∈ summary_fields true /\
    getitem_to_list hits10 name = Raise e /\
    list_data (PdDataFrame hits10) true = Raise e /\
    SchemaViolationError e = true.
Proof.
  split.
  - apply (proj1 (list_data_column_count_checked hits12 true)). right. simpl. lia.
  - apply (proj2 (list_data_column_count_checked hits10 true)); reflexivity.
Defined.

(** C2 as stated fails: eleven columns without a request for q-values are an
    inconsistent count, and the call returns the ten columns. *)
Lemma list_data_count_inconsistent_accepted :
  length (columns hits11) = 11 /\
  list_data (PdDataFrame hits11) false = Return (map snd (columns hits10)).
Proof. split; reflexivity. Qed.

(** On a frame whose columns are as long as its index, every selected column
    has the length of the index: such a table has no column of another
    length. *)
Lemma aligned_getitem_length data name col :
  aligned data = true -> getitem_to_list data name = Return col ->
  length col = length (index data).
Proof.
  intros Ha Hcol. eapply aligned_column; [eassumption|].
  by apply getitem_to_list_Return.
Qed.

(** With the ten required columns in order and no q-value column, a request
    for q-values stops at the selection of the q-value column. *)
Lemma list_data_missing_qvalue data :
  well_formed data false = true -> "q-value" ∉ (columns data).*1 ->
  list_data (PdDataFrame data) true = Raise (KeyError "q-value").
Proof.
  intros ([H10 H11] & Hf & _)%well_formed_inv Hno%getitem_to_list_absent.
  pose proof (fun name Hin => has_fields_Return _ _ name Hf Hin) as Hcols.
  unfold list_data.
  rewrite (leb_correct _ _ H11), (leb_correct _ _ H10).
  repeat match goal with
  | |- context [getitem_to_list data ?name ≫= _] =>
      lazymatch name with
      | "q-value" => fail
      | _ => destruct (Hcols name) as [? ->]; [elem_of_fields|]; cbn [mbind result_bind assert]
      end
  end.
  by rewrite Hno.
Qed.

(** C4.  When q-values are requested, a table without a q-value column is
    rejected (with [KeyError] when its ten required columns are in order),
    and a well-formed table with one (the column as long as the others) is
    accepted: the call returns its eleven columns. *)
Theorem list_data_qvalue_requested data :
  ("q-value" ∉ (columns data).*1 ->
   exists e, list_data (PdDataFrame data) true = Raise e /\
             SchemaViolationError e = true /\
             (well_formed data false = true -> e = KeyError "q-value")) /\
  (well_formed data true = true ->
   exists summary,
     list_data (PdDataFrame data) true = Return summary /\
     Forall2 (fun name col => getitem_to_list data name = Return col)
             (summary_fields true) summary).
Proof.
  split; [|apply well_formed_Return].
  intros Hno.
  destruct (list_data (PdDataFrame data) true) as [summary|e] eqn:Hrun.
  - apply list_data_Return_inv in Hrun as (_ & Hf & _).
    assert (Hq : summary_fields true !! 10 = Some "q-value") by reflexivity.
    destruct (Forall2_lookup_l _ _ _ _ _ Hf Hq) as (col & _ & Hcol).
    apply getitem_to_list_absent in Hno. congruence.
  - exists e. split; [reflexivity|].
    split; [by eapply list_data_Raise_schema|].
    intros Hwf. rewrite (list_data_missing_qvalue _ Hwf Hno) in Hrun. congruence.
Qed.

Lemma list_data_qvalue_requested_witness :
  (exists e, list_data (PdDataFrame hits10) true = Raise e /\
             SchemaViolationError e = true /\
             (well_formed hits10 false = true -> e = KeyError "q-value")) /\
  (exists summary,
     list_data (PdDataFrame hits11) true = Return summary /\
     Forall2 (fun name col => getitem_to_list hits11 name = Return col)
             (summary_fields true) summary).
Proof.
  split.
  - apply (proj1 (list_data_qvalue_requested hits10)).
    apply (bool_decide_unpack _). reflexivity.
  - apply (proj2 (list_data_qvalue_requested hits11)). reflexivity.
Defined.

(** C10.  A table with eleven columns, the q-values among them, is accepted
    when q-values are not requested: the call returns the ten other columns
    in the field order, and the q-value column is left out. *)
Theorem list_data_qvalue_dropped data :
  length (columns data) = 11 ->
  well_formed data true = true ->
  exists summary,
    list_data (PdDataFrame data) false = Return summary /\
    Forall2 (fun name col => getitem_to_list data name = Return col)
            field_order summary /\
    length summary = 10.
Proof.
  intros _ (Hn & Hf & Ha)%well_formed_inv.
  assert (Hwf : well_formed data false = true).
  { unfold well_formed. rewrite !andb_true_iff, !Nat.leb_le.
    repeat split; try tauto.
    unfold has_fields in *. rewrite forallb_forall in *.
    intros name Hin. apply Hf. unfold summary_fields. apply in_or_app. left.
    unfold summary_fields in Hin. by rewrite app_nil_r in Hin. }
  destruct (well_formed_Return _ _ Hwf) as (summary & Hrun & Hcols).
  unfold summary_fields in Hcols. rewrite app_nil_r in Hcols.
  exists summary. split; [assumption|]. split; [assumption|].
  apply Forall2_length in Hcols. by rewrite <- Hcols.
Qed.

Lemma list_data_qvalue_dropped_witness :
  length (columns hits11) = 11 /\
  exists summary,
    list_data (PdDataFrame hits11) false = Return summary /\
    Forall2 (fun name col => getitem_to_list hits11 name = Return col)
            field_order summary /\
    length summary = 10.
Proof.
  split; [reflexivity|].
  apply (list_data_qvalue_dropped hits11); reflexivity.
Defined.

(** ** Comparisons of doubles *)

Lemma SFcompare_swap x y c :
  SFcompare x y = Some c -> SFcompare y x = Some (CompOpp c).
Proof.
  destruct x as [sx|sx| |sx mx ex], y as [sy|sy| |sy my ey]; simpl;
    try discriminate; intros [= <-]; try (by destruct sx); try (by destruct sy);
    try (by destruct sx, sy).
  rewrite (Z.compare_antisym ex ey), (Pos.compare_cont_antisym mx my Eq).
  destruct sx, sy; try reflexivity; simpl;
    destruct (ex ?= ey)%Z; simpl; try reflexivity.
  by rewrite Pos.compare_cont_antisym.
Qed.

Lemma SFcompare_not_nan x y :
  x <> S754_nan -> y <> S754_nan -> exists c, SFcompare x y = Some c.
Proof.
  destruct x as [sx|sx| |sx mx ex], y as [sy|sy| |sy my ey]; simpl;
    intros Hx Hy; try congruence; eauto.
Qed.

Lemma is_nan_false x : is_nan x = false -> Prim2SF x <> S754_nan.
Proof.
  unfold is_nan. rewrite FloatAxioms.eqb_spec. intros H Hx. rewrite Hx in H. discriminate.
Qed.

(** Between doubles that are numbers, [y > x] fails exactly when [y <= x]. *)
Lemma gtb_negb_leb x y :
  is_nan x = false -> is_nan y = false -> gtb y x = negb (y <=? x)%float.
Proof.
  intros Hx%is_nan_false Hy%is_nan_false. unfold gtb.
  rewrite FloatAxioms.ltb_spec, FloatAxioms.leb_spec. unfold SFltb, SFleb.
  destruct (SFcompare_not_nan _ _ Hy Hx) as [c Hc].
  rewrite Hc, (SFcompare_swap _ _ _ Hc). by destruct c.
Qed.

Lemma eqb_not_ltb x y : (x =? y)%float = true -> (y <? x)%float = false.
Proof.
  rewrite FloatAxioms.eqb_spec, FloatAxioms.ltb_spec. unfold SFeqb, SFltb.
  destruct (SFcompare (Prim2SF x) (Prim2SF y)) as [c|] eqn:Hc; [|discriminate].
  rewrite (SFcompare_swap _ _ _ Hc). by destruct c.
Qed.

(** ** The scoring model *)

(** C5, as the code has it.  When [a - t], [a + t] and [b] are numbers,
    [almost_equal a b t] holds exactly when [b] lies in the closed interval
    from [a - t] to [a + t]; it holds at (10.0, 10.0, 0.0) and at
    (10.0, 9.9, 0.2), and fails at (10.0, 10.3, 0.2). *)
Theorem almost_equal_closed_interval :
  (forall a b t,
     is_nan (a - t) = false -> is_nan (a + t) = false -> is_nan b = false ->
     almost_equal a b t = in_closed_interval a b t) /\
  almost_equal 10.0 10.0 0.0 = true /\
  almost_equal 10.0 10.3 0.2 = false /\
  almost_equal 10.0 9.9 0.2 = true.
Proof.
  split; [|repeat split; reflexivity].
  intros a b t Hlo Hhi Hb. unfold almost_equal, in_closed_interval.
  rewrite (gtb_negb_leb b (a - t) Hb Hlo).
  change (a + t <? b)%float with (gtb b (a + t)).
  rewrite (gtb_negb_leb (a + t) b Hhi Hb).
  by destruct (a - t <=? b)%float, (b <=? a + t)%float.
Qed.

Lemma almost_equal_closed_interval_witness :
  almost_equal 10.0 9.9 0.2 = in_closed_interval 10.0 9.9 0.2.
Proof.
  apply (proj1 almost_equal_closed_interval 10.0 9.9 0.2)%float; reflexivity.
Defined.

(** C5 as stated fails when a value is not a number: every comparison with
    [nan] is false, so [almost_equal] holds although [nan] lies in no
    interval. *)
Lemma almost_equal_nan :
  almost_equal 10.0 nan 0.2 = true /\ in_closed_interval 10.0 nan 0.2 = false.
Proof. split; reflexivity. Qed.

(** C6, as the code has it.  [lg2] returns [np.log(value)] times 1.44269504
    for every value and never raises: 0.0 at 1.0, within 1e-6 of -1.0 at 0.5
    (and not within 1e-10 of it: the factor has nine digits), [-inf] at zero
    and [nan] below zero. *)
Theorem lg2_returns np_log :
  numpy_log np_log ->
  (forall v, lg2 np_log v = Return (np_log v * LOG_FACTOR)%float) /\
  lg2 np_log 1.0 = Return 0.0%float /\
  (exists r, lg2 np_log 0.5 = Return r /\
     almost_equal (-1.0) r 0.000001 = true /\
     almost_equal (-1.0) r 0.0000000001 = false) /\
  lg2 np_log 0.0 = Return neg_infinity /\
  (forall v, (v <? 0)%float = true -> lg2 np_log v = Return nan).
Proof.
  intros [H1 Hhalf H0 Hneg]. unfold lg2.
  split; [reflexivity|]. split; [by rewrite H1|].
  split; [rewrite Hhalf; eexists; repeat split; reflexivity|].
  split; [by rewrite H0|].
  intros v Hv. by rewrite (Hneg v Hv).
Qed.

Lemma numpy_log_at_checked : numpy_log log_at_checked.
Proof.
  split; try reflexivity.
  intros x Hx. unfold log_at_checked. by rewrite Hx.
Defined.

Lemma lg2_returns_witness :
  lg2 log_at_checked 1.0 = Return 0.0%float /\
  lg2 log_at_checked 0.0 = Return neg_infinity.
Proof.
  destruct (lg2_returns log_at_checked numpy_log_at_checked) as (_ & H1 & _ & H0 & _).
  split; assumption.
Defined.

(** C6 as stated fails at zero, which is not above zero: the call returns. *)
Lemma lg2_zero_returns :
  (0.0 <=? 0)%float = true /\
  lg2 log_at_checked 0.0 = Return neg_infinity /\
  raises (lg2 log_at_checked (-1.0)) = false.
Proof. repeat split; reflexivity. Qed.

(** C7.  [corrected_probability] leaves a probability in (0, 1] unchanged,
    answers the pseudocount 5e-7 at zero, and is positive in every case. *)
Theorem corrected_probability_positive p :
  ((0 <? p)%float = true -> (p <=? 1)%float = true -> corrected_probability p = p) /\
  ((p =? 0)%float = true -> corrected_probability p = 0.0000005%float) /\
  (0 <? corrected_probability p)%float = true.
Proof.
  unfold corrected_probability, gtb. repeat split.
  - by intros -> _.
  - by intros ->%eqb_not_ltb.
  - by destruct (0 <? p)%float eqn:Hp.
Qed.

Lemma corrected_probability_positive_witness :
  corrected_probability 0.25 = 0.25%float /\
  corrected_probability 0.0 = 0.0000005%float /\
  (0 <? corrected_probability 0.25)%float = true.
Proof.
  split; [|split].
  - apply (proj1 (corrected_probability_positive 0.25)); reflexivity.
  - apply (proj1 (proj2 (corrected_probability_positive 0.0))); reflexivity.
  - apply (proj2 (proj2 (corrected_probability_positive 0.25))).
Defined.

(** C8.  On the four nucleotides, complementing twice gives the nucleotide
    back. *)
Theorem complement_involutive b :
  b ∈ DNA_ALPHABET -> complement b ≫= complement = Return b.
Proof.
  unfold DNA_ALPHABET. intros Hb.
  repeat (apply elem_of_cons in Hb as [->|Hb]; [reflexivity|]).
  by apply elem_of_nil in Hb.
Qed.

Lemma complement_involutive_witness :
  complement "G" ≫= complement = Return "G".
Proof. apply (complement_involutive "G"). apply (bool_decide_unpack _). reflexivity. Defined.

(** C9.  A symbol that is not one of A, C, G, T has no complement: the
    operation fails with [InvalidSymbolError]. *)
Theorem complement_invalid_symbol b :
  b ∉ DNA_ALPHABET -> complement b = Raise (InvalidSymbolError b).
Proof.
  unfold DNA_ALPHABET. rewrite !not_elem_of_cons. intros (HA & HC & HG & HT & _).
  unfold complement, REV_COMPL.
  by rewrite !lookup_insert_ne, lookup_empty.
Qed.

Lemma complement_invalid_symbol_witness :
  complement "N" = Raise (InvalidSymbolError "N").
Proof. apply (complement_invalid_symbol "N"). apply (bool_decide_unpack _). reflexivity. Defined.

(** ** unique_lst *)

Section UniqueListFacts.
Context `{EqDecision A}.
Implicit Types (lst acc u : list A) (size : option Z) (n k : Z).
Local Open Scope list_scope.

(** Whatever the limit, the loop extends the collected values by a
    subsequence of the elements it visits, and keeps them free of repeats. *)
Lemma unique_lst_loop_app lst size acc n :
  exists r, unique_lst_loop lst size acc n = acc ++ r /\
            r `sublist_of` lst /\
            (NoDup acc -> NoDup (acc ++ r)).
Proof.
  revert acc n. induction lst as [|el lst IH]; intros acc n; simpl.
  - exists []. rewrite app_nil_r. split; [done|]. split; [constructor | done].
  - case_bool_decide as Hel.
    + assert (Hnd : NoDup acc -> NoDup (acc ++ [el])).
      { intros Hacc. apply NoDup_app. split; [done|].
        split; [|apply NoDup_singleton].
        intros x Hx ->%list_elem_of_singleton. done. }
      destruct (match size with Some s => (n + 1 =? s)%Z | None => false end).
      * exists [el]. split; [done|]. split; [|done].
        apply sublist_skip, sublist_nil_l.
      * destruct (IH (acc ++ [el]) (n + 1)%Z) as (r & -> & Hsub & Hno).
        exists (el :: r). rewrite <- app_assoc. split; [done|].
        split; [by apply sublist_skip|].
        intros Hacc.
        replace (acc ++ el :: r) with ((acc ++ [el]) ++ r) by (by rewrite <- app_assoc).
        auto.
    + destruct (match size with Some s => (n =? s)%Z | None => false end).
      * exists []. rewrite app_nil_r. split; [done|]. split; [apply sublist_nil_l | done].
      * destruct (IH acc n) as (r & -> & Hsub & Hno).
        exists r. split; [done|]. split; [by apply sublist_cons | done].
Qed.

(** Without a limit, the loop collects every value it visits. *)
Lemma unique_lst_loop_elem_of lst acc n x :
  x ∈ unique_lst_loop lst None acc n <-> x ∈ acc \/ x ∈ lst.
Proof.
  revert acc n. induction lst as [|el lst IH]; intros acc n; simpl.
  - rewrite elem_of_nil. tauto.
  - case_bool_decide as Hel; rewrite IH, elem_of_cons.
    + rewrite elem_of_app, list_elem_of_singleton. tauto.
    + split; [tauto|].
      intros [?|[->|?]]; auto.
Qed.

(** Without a limit, the count plays no role. *)
Lemma unique_lst_loop_None_num lst acc n n' :
  unique_lst_loop lst None acc n = unique_lst_loop lst None acc n'.
Proof.
  revert acc n n'. induction lst as [|el lst IH]; intros acc n n'; simpl; [done|].
  case_bool_decide; apply IH.
Qed.

(** A limit below the count is never met. *)
Lemma unique_lst_loop_passed lst k acc n :
  (k < n)%Z ->
  unique_lst_loop lst (Some k) acc n = unique_lst_loop lst None acc n.
Proof.
  revert acc n. induction lst as [|el lst IH]; intros acc n Hk; simpl; [done|].
  case_bool_decide.
  - destruct (Z.eqb_spec (n + 1) k); [lia|]. apply IH. lia.
  - destruct (Z.eqb_spec n k); [lia|]. by apply IH.
Qed.

(** A limit above the count of the collected values cuts the values that the
    loop would collect without a limit. *)
Lemma unique_lst_loop_take lst k acc :
  (Z.of_nat (length acc) < k)%Z ->
  unique_lst_loop lst (Some k) acc (Z.of_nat (length acc)) =
  take (Z.to_nat k) (unique_lst_loop lst None acc (Z.of_nat (length acc))).
Proof.
  revert acc. induction lst as [|el lst IH]; intros acc Hk; simpl.
  - rewrite take_ge; [done | lia].
  - case_bool_decide.
    + assert (Hlen : (Z.of_nat (length acc) + 1)%Z = Z.of_nat (length (acc ++ [el])))
        by (rewrite length_app; simpl; lia).
      rewrite Hlen. destruct (Z.eqb_spec (Z.of_nat (length (acc ++ [el]))) k) as [Hk'|Hk'].
      * destruct (unique_lst_loop_app lst None (acc ++ [el])
                    (Z.of_nat (length (acc ++ [el])))) as (r & -> & _).
        rewrite take_app_le by lia. rewrite take_ge; [done | lia].
      * apply IH. lia.
    + destruct (Z.eqb_spec (Z.of_nat (length acc)) k); [lia|]. by apply IH.
Qed.

(** A list without repeats is collected as it is. *)
Lemma unique_lst_loop_NoDup lst acc n :
  NoDup (acc ++ lst) -> unique_lst_loop lst None acc n = acc ++ lst.
Proof.
  revert acc n. induction lst as [|el lst IH]; intros acc n Hnd; simpl.
  - by rewrite app_nil_r.
  - assert (Heq : acc ++ el :: lst = (acc ++ [el]) ++ lst) by (by rewrite <- app_assoc).
    rewrite Heq in Hnd |- *.
    case_bool_decide as Hel; [by apply IH|].
    apply NoDup_app in Hnd as [Hnd _]. apply NoDup_app in Hnd as (_ & Hnd & _).
    destruct (Hnd el Hel). by apply list_elem_of_singleton.
Qed.

Lemma unique_lst_Return_inv lst size u :
  unique_lst lst size = Return u ->
  lst <> [] /\ u = unique_lst_loop lst size [] 0.
Proof.
  unfold unique_lst. destruct lst as [|el lst]; [discriminate|]. intros Hrun.
  split; [done|].
  apply bind_Return_inv in Hrun as (_ & _ & Hrun).
  apply bind_Return_inv in Hrun as (_ & _ & Hrun). by injection Hrun.
Qed.

Lemma unique_lst_Return_intro el lst size :
  unique_lst (el :: lst) size = Return (unique_lst_loop (el :: lst) size [] 0) /\
  head (unique_lst_loop (el :: lst) size [] 0) = Some el.
Proof.
  assert (Hhd : head (unique_lst_loop (el :: lst) size [] 0) = Some el).
  { simpl. destruct (match size with Some (Z.pos q) => _ | _ => false end); [done|].
    by destruct (unique_lst_loop_app lst size [el] (0 + 1)) as (r & -> & _). }
  split; [|done]. unfold unique_lst.
  destruct (unique_lst_loop (el :: lst) size [] 0); [discriminate|done].
Qed.

(** X1.  [unique_lst] fails exactly on the empty list, on its first
    assertion; on any other list it returns, and the first value returned is
    the first element of the list (so the closing assertion never fails). *)
Theorem unique_lst_fails_iff_empty lst size :
  (unique_lst lst size = Raise AssertionError <-> lst = []) /\
  (lst <> [] -> exists u, unique_lst lst size = Return u /\ head u = head lst).
Proof.
  destruct lst as [|el lst].
  - split; [done|]. by intros [].
  - destruct (unique_lst_Return_intro el lst size) as [Hrun Hhd].
    split; [rewrite Hrun; split; discriminate|].
    intros _. eauto.
Qed.

(** Whatever the limit, a value that the loop adds stands at the place of
    its first occurrence: it occurs in the list, and the values collected
    before it are the values collected at the start and those that occur in
    the list before its first occurrence. *)
Lemma unique_lst_loop_first lst size acc n r x :
  NoDup acc ->
  unique_lst_loop lst size acc n = acc ++ r ->
  x ∈ r ->
  exists l1 l2 r1 r2,
    lst = l1 ++ (x :: l2) /\ (x ∉ l1) /\ r = r1 ++ (x :: r2) /\
    forall y, y ∈ acc \/ y ∈ r1 <-> y ∈ acc \/ y ∈ l1.
Proof.
  revert acc n r. induction lst as [|el lst IH]; intros acc n r Hacc Hrun Hx.
  - simpl in Hrun. rewrite <- (app_nil_r acc) in Hrun at 1.
    apply app_inv_head in Hrun as <-. by apply elem_of_nil in Hx.
  - assert (Hfresh : x ∉ acc).
    { destruct (unique_lst_loop_app (el :: lst) size acc n) as (r' & Hr' & _ & Hnd).
      rewrite Hrun in Hr'. apply app_inv_head in Hr' as <-.
      apply NoDup_app in Hnd as (_ & Hnd & _); [|done]. intros Hin. by apply (Hnd x). }
    simpl in Hrun. case_bool_decide as Hel.
    + assert (Hacc' : NoDup (acc ++ [el])).
      { apply NoDup_app. split; [done|]. split; [|apply NoDup_singleton].
        intros y Hy ->%list_elem_of_singleton. done. }
      destruct (match size with Some s => (n + 1 =? s)%Z | None => false end).
      * apply app_inv_head in Hrun as <-.
        apply list_elem_of_singleton in Hx as ->.
        exists [], lst, [], []. split; [done|]. split; [apply not_elem_of_nil|].
        split; [done|]. tauto.
      * destruct (unique_lst_loop_app lst size (acc ++ [el]) (n + 1)) as (r' & Hr' & _).
        assert (Hr : r = el :: r').
        { rewrite Hrun, <- app_assoc in Hr'. by apply app_inv_head in Hr'. }
        subst r. apply elem_of_cons in Hx as [->|Hx].
        -- exists [], lst, [], r'. split; [done|]. split; [apply not_elem_of_nil|].
           split; [done|]. tauto.
        -- assert (Hrun' : unique_lst_loop lst size (acc ++ [el]) (n + 1)
                           = (acc ++ [el]) ++ r')
             by (by rewrite Hrun, <- app_assoc).
           destruct (IH _ _ _ Hacc' Hrun' Hx) as (l1 & l2 & r1 & r2 & -> & Hl1 & -> & Hmem).
           assert (Hne : x <> el).
           { intros ->.
             destruct (unique_lst_loop_app (l1 ++ (el :: l2)) size (acc ++ [el]) (n + 1))
               as (r'' & Hr'' & _ & Hnd).
             rewrite Hrun' in Hr''. apply app_inv_head in Hr'' as <-.
             apply NoDup_app in Hnd as (_ & Hnd & _); [|done].
             apply (Hnd el); [|done].
             apply elem_of_app. right. apply list_elem_of_here. }
           exists (el :: l1), l2, (el :: r1), r2. split; [done|].
           split; [rewrite not_elem_of_cons; done|]. split; [done|].
           intros y. specialize (Hmem y).
           rewrite !elem_of_app, list_elem_of_singleton in Hmem.
           rewrite !elem_of_cons. tauto.
    + destruct (match size with Some s => (n =? s)%Z | None => false end).
      * rewrite <- (app_nil_r acc) in Hrun at 1.
        apply app_inv_head in Hrun as <-. by apply elem_of_nil in Hx.
      * destruct (IH _ _ _ Hacc Hrun Hx) as (l1 & l2 & r1 & r2 & -> & Hl1 & -> & Hmem).
        assert (Hne : x <> el) by (by intros ->).
        exists (el :: l1), l2, r1, r2. split; [done|].
        split; [rewrite not_elem_of_cons; done|]. split; [done|].
        intros y. specialize (Hmem y). rewrite elem_of_cons.
        split; [tauto|]. intros [?|[->|?]]; tauto.
Qed.

(** X2.  The values [unique_lst] returns are pairwise distinct and form a
    subsequence of the list, and each of them stands at the place of its
    first occurrence: the values returned before it are exactly the values
    that occur in the list before its first occurrence. *)
Theorem unique_lst_NoDup_sublist lst size u :
  unique_lst lst size = Return u ->
  NoDup u /\ u `sublist_of` lst /\
  forall x, x ∈ u ->
    exists l1 l2 u1 u2,
      lst = l1 ++ (x :: l2) /\ (x ∉ l1) /\ u = u1 ++ (x :: u2) /\
      forall y, y ∈ u1 <-> y ∈ l1.
Proof.
  intros [_ ->]%unique_lst_Return_inv.
  destruct (unique_lst_loop_app lst size [] 0) as (r & Hrun & Hsub & Hnd).
  rewrite Hrun. simpl.
  split; [apply (Hnd (NoDup_nil_2))|]. split; [done|].
  intros x Hx.
  destruct (unique_lst_loop_first lst size [] 0 r x (NoDup_nil_2) Hrun Hx)
    as (l1 & l2 & u1 & u2 & -> & Hl1 & -> & Hmem).
  exists l1, l2, u1, u2. repeat split; try done.
  - intros Hy. destruct (proj1 (Hmem y)) as [Hy'|Hy']; auto. by apply elem_of_nil in Hy'.
  - intros Hy. destruct (proj2 (Hmem y)) as [Hy'|Hy']; auto. by apply elem_of_nil in Hy'.
Qed.

(** X3.  Without a size limit, [unique_lst] returns exactly the values that
    occur in the list. *)
Theorem unique_lst_elem_of lst u :
  unique_lst lst None = Return u -> forall x, x ∈ u <-> x ∈ lst.
Proof.
  intros [_ ->]%unique_lst_Return_inv x.
  rewrite unique_lst_loop_elem_of, elem_of_nil. tauto.
Qed.

(** X4.  With a positive size limit [k], [unique_lst] returns the first [k]
    of the values it returns without a limit (all of them when there are
    fewer). *)
Theorem unique_lst_size_take lst k :
  (0 < k)%Z ->
  unique_lst lst (Some k) = take (Z.to_nat k) <$> unique_lst lst None.
Proof.
  intros Hk. destruct lst as [|el lst]; [done|].
  rewrite (proj1 (unique_lst_Return_intro el lst (Some k))).
  rewrite (proj1 (unique_lst_Return_intro el lst None)).
  cbn [fmap result_fmap]. f_equal.
  by apply (unique_lst_loop_take (el :: lst) k []).
Qed.

(** X5.  A size limit of zero or below is never reached: the call returns
    what it returns without a limit, not an empty list. *)
Theorem unique_lst_size_nonpositive lst k :
  (k <= 0)%Z -> unique_lst lst (Some k) = unique_lst lst None.
Proof.
  intros Hk. destruct lst as [|el lst]; [done|].
  rewrite (proj1 (unique_lst_Return_intro el lst (Some k))).
  rewrite (proj1 (unique_lst_Return_intro el lst None)).
  f_equal. cbn [unique_lst_loop].
  rewrite bool_decide_true by apply not_elem_of_nil.
  destruct (Z.eqb_spec (0 + 1) k); [lia|].
  apply unique_lst_loop_passed. lia.
Qed.

(** X6.  A non-empty list without repeats is returned as it is; so
    [unique_lst] applied to its own result changes nothing. *)
Theorem unique_lst_NoDup_id lst :
  NoDup lst -> lst <> [] -> unique_lst lst None = Return lst.
Proof.
  intros Hnd Hne. destruct lst as [|el lst]; [done|].
  rewrite (proj1 (unique_lst_Return_intro el lst None)).
  f_equal. by apply (unique_lst_loop_NoDup (el :: lst) []).
Qed.

End UniqueListFacts.

Lemma unique_lst_NoDup_sublist_witness :
  NoDup [3; 1; 2]%Z /\ [3; 1; 2]%Z `sublist_of` [3; 1; 3; 2; 1]%Z /\
  forall x : Z, x ∈ [3; 1; 2]%Z ->
    exists l1 l2 u1 u2 : list Z,
      [3; 1; 3; 2; 1]%Z = (l1 ++ (x :: l2))%list /\ (x ∉ l1) /\
      [3; 1; 2]%Z = (u1 ++ (x :: u2))%list /\
      forall y, y ∈ u1 <-> y ∈ l1.
Proof. apply (unique_lst_NoDup_sublist [3; 1; 3; 2; 1]%Z None). reflexivity. Defined.

Lemma unique_lst_elem_of_witness :
  2%Z ∈ [3; 1; 2]%Z <-> 2%Z ∈ [3; 1; 3; 2; 1]%Z.
Proof. apply (unique_lst_elem_of [3; 1; 3; 2; 1]%Z [3; 1; 2]%Z). reflexivity. Defined.

Lemma unique_lst_size_take_witness :
  unique_lst [3; 1; 3; 2; 1]%Z (Some 2%Z) =
  take 2 <$> unique_lst [3; 1; 3; 2; 1]%Z None.
Proof. apply (unique_lst_size_take [3; 1; 3; 2; 1]%Z 2). reflexivity. Defined.

Lemma unique_lst_size_nonpositive_witness :
  unique_lst [3; 1; 3; 2; 1]%Z (Some 0%Z) = unique_lst [3; 1; 3; 2; 1]%Z None.
Proof. apply (unique_lst_size_nonpositive [3; 1; 3; 2; 1]%Z 0). discriminate. Defined.

Lemma unique_lst_NoDup_id_witness :
  unique_lst [3; 1; 2]%Z None = Return [3; 1; 2]%Z.
Proof.
  apply (unique_lst_NoDup_id [3; 1; 2]%Z); [|discriminate].
  apply (bool_decide_unpack _). reflexivity.
Defined.

(** ** isListEqual *)

Section ListEqualFacts.
Context `{Countable A}.
Implicit Types lst : list A.

Lemma isListEqual_true lst1 lst2 :
  isListEqual lst1 lst2 = true <->
  length lst1 = length lst2 /\ forall x, x ∈ lst1 <-> x ∈ lst2.
Proof.
  unfold isListEqual.
  destruct (Nat.eqb_spec (length lst1) (length lst2)) as [Hlen|Hlen]; simpl;
    [|split; [discriminate | tauto]].
  case_bool_decide as Hset.
  - split; [|done]. intros _. split; [done|]. intros x.
    rewrite <- (elem_of_list_to_set (C:=gset A) x lst1), Hset.
    apply elem_of_list_to_set.
  - split; [discriminate|]. intros [_ Hmem]. destruct Hset.
    apply set_eq. intros x. by rewrite !elem_of_list_to_set.
Qed.

Lemma Permutation_isListEqual lst1 lst2 :
  lst1 ≡ₚ lst2 -> isListEqual lst1 lst2 = true.
Proof.
  intros Hp. apply isListEqual_true. split; [by apply Permutation_length|].
  intros x. by rewrite Hp.
Qed.

(** X7.  A list and any reordering of it are equal for [isListEqual], in
    either direction. *)
Theorem isListEqual_Permutation lst1 lst2 :
  lst1 ≡ₚ lst2 ->
  isListEqual lst1 lst2 = true /\ isListEqual lst2 lst1 = true.
Proof. intros Hp. split; by apply Permutation_isListEqual. Qed.

(** X8.  When the first list has no repeats, [isListEqual] holds exactly when
    the second list is a reordering of it. *)
Theorem isListEqual_NoDup lst1 lst2 :
  NoDup lst1 -> isListEqual lst1 lst2 = true <-> lst1 ≡ₚ lst2.
Proof.
  intros Hnd. split; [|apply Permutation_isListEqual].
  intros [Hlen Hmem]%isListEqual_true.
  apply submseteq_length_Permutation; [|lia].
  apply NoDup_submseteq; [done|]. intros x. apply Hmem.
Qed.

(** X9.  [isListEqual] does not compare how often a value occurs: with two
    different values, it holds between [a, a, b] and [a, b, b], which are not
    reorderings of each other. *)
Theorem isListEqual_ignores_multiplicity (a b : A) :
  a <> b ->
  isListEqual [a; a; b] [a; b; b] = true /\ ~ [a; a; b] ≡ₚ [a; b; b].
Proof.
  intros Hab. split.
  - apply isListEqual_true. split; [done|]. intros x.
    rewrite !elem_of_cons, !elem_of_nil. tauto.
  - intros Hp%Permutation_cons_inv.
    assert (Ha : a ∈ [b; b]) by (rewrite <- Hp; apply list_elem_of_here).
    rewrite !elem_of_cons, elem_of_nil in Ha. tauto.
Qed.

End ListEqualFacts.

Lemma isListEqual_Permutation_witness :
  isListEqual ["tabix"; "vg"; "dot"] ["dot"; "tabix"; "vg"] = true /\
  isListEqual ["dot"; "tabix"; "vg"] ["tabix"; "vg"; "dot"] = true.
Proof.
  apply (isListEqual_Permutation ["tabix"; "vg"; "dot"] ["dot"; "tabix"; "vg"]).
  symmetry. apply (Permutation_cons_append ["tabix"; "vg"] "dot").
Defined.

Lemma isListEqual_NoDup_witness :
  isListEqual [1; 2; 3]%Z [3; 1; 2]%Z = true <-> [1; 2; 3]%Z ≡ₚ [3; 1; 2]%Z.
Proof.
  apply (isListEqual_NoDup [1; 2; 3]%Z [3; 1; 2]%Z).
  apply (bool_decide_unpack _). reflexivity.
Defined.

Lemma isListEqual_ignores_multiplicity_witness :
  isListEqual [1; 1; 2]%Z [1; 2; 2]%Z = true /\ ~ [1; 1; 2]%Z ≡ₚ [1; 2; 2]%Z.
Proof. apply (isListEqual_ignores_multiplicity 1%Z 2%Z). discriminate. Defined.

(** ** initialize_chroms_list *)

(** X10.  [initialize_chroms_list] never returns an empty list: it returns
    the chromosomes it is given, and the 24 default names, all different,
    when given none; applying it again changes nothing. *)
Theorem initialize_chroms_list_nonempty args_chroms :
  initialize_chroms_list args_chroms <> [] /\
  (args_chroms <> [] -> initialize_chroms_list args_chroms = args_chroms) /\
  (args_chroms = [] ->
   length (initialize_chroms_list args_chroms) = 24 /\
   NoDup (initialize_chroms_list args_chroms)) /\
  initialize_chroms_list (initialize_chroms_list args_chroms) =
  initialize_chroms_list args_chroms.
Proof.
  destruct args_chroms as [|c cs]; simpl.
  - split; [discriminate|]. split; [done|]. split; [|done].
    intros _. split; [done|]. apply (bool_decide_unpack _). reflexivity.
  - split; [discriminate|]. split; [done|]. split; [discriminate|done].
Qed.

(** ** check_deps *)

Section CheckDepsFacts.
Variable which : string -> option string.
Local Open Scope list_scope.

Lemma check_deps_loop_spec deps sat deps_not_sats :
  check_deps_loop which deps sat deps_not_sats =
  (sat && forallb (fun dep => is_not_None (which dep)) deps,
   deps_not_sats ++ filter (fun dep => which dep = None) deps).
Proof.
  revert sat deps_not_sats.
  induction deps as [|dep deps IH]; intros sat deps_not_sats; simpl.
  - by rewrite andb_true_r, app_nil_r.
  - rewrite IH. destruct (which dep) as [path|] eqn:Hdep; simpl.
    + rewrite filter_cons_False by (rewrite Hdep; discriminate). done.
    + rewrite filter_cons_True by done.
      by rewrite andb_false_r, <- app_assoc.
Qed.

(** X11.  [check_deps] lists, in the order of [EXT_DEPS], exactly the
    dependencies that [which] does not find, and its flag is true exactly
    when that list is empty, that is when every dependency is found. *)
Theorem check_deps_missing :
  (check_deps which).2 = filter (fun dep => which dep = None) EXT_DEPS /\
  ((check_deps which).1 = true <-> (check_deps which).2 = []) /\
  ((check_deps which).1 = true <-> forall dep, dep ∈ EXT_DEPS -> is_Some (which dep)).
Proof.
  unfold check_deps. rewrite check_deps_loop_spec. cbn [fst snd andb app].
  split; [done|].
  assert (Hall : forallb (fun dep => is_not_None (which dep)) EXT_DEPS = true <->
                 forall dep, dep ∈ EXT_DEPS -> is_Some (which dep)).
  { rewrite forallb_forall. split; intros Hf dep Hin.
    - apply list_elem_of_In, Hf in Hin. by destruct (which dep).
    - apply list_elem_of_In, Hf in Hin as [path ->]. done. }
  split; [|done]. rewrite Hall. split.
  - intros Hf. apply elem_of_nil_inv. intros dep [Hno Hin]%list_elem_of_filter.
    destruct (Hf dep Hin) as [path Hpath]. congruence.
  - intros Hnil dep Hin. destruct (which dep) as [path|] eqn:Hdep; [eauto|].
    by destruct (filter_nil_not_elem_of _ _ dep Hnil Hdep).
Qed.


End CheckDepsFacts.

(** ** Strings *)

Lemma append_nil_l (s : string) : "" +:+ s = s.
Proof. reflexivity. Qed.

Lemma append_cons (c : ascii) (p s : string) :
  String c p +:+ s = String c (p +:+ s).
Proof. reflexivity. Qed.

Lemma append_assoc (a b c : string) : (a +:+ b) +:+ c = a +:+ b +:+ c.
Proof. induction a as [|x a IH]; [done|]. rewrite !append_cons. by f_equal. Qed.

Lemma split_nonempty sep s : exists piece pieces, split sep s = piece :: pieces.
Proof.
  destruct s as [|c s]; simpl; [eauto|].
  destruct (Ascii.eqb c sep); [eauto|]. destruct (split sep s); eauto.
Qed.

(** Splitting around an occurrence of the separator splits both sides. *)
Lemma split_app sep p s :
  split sep (p +:+ String sep s) = (split sep p ++ split sep s)%list.
Proof.
  induction p as [|c p IH].
  - rewrite append_nil_l. simpl. by rewrite Ascii.eqb_refl.
  - rewrite append_cons. simpl. rewrite IH.
    destruct (Ascii.eqb c sep); [done|].
    by destruct (split_nonempty sep p) as (piece & pieces & ->).
Qed.

(** The last piece of a split is the whole string, or what follows an
    occurrence of the separator. *)
Lemma last_split_inv sep s ff :
  last (split sep s) = Some ff ->
  (split sep s = [ff] /\ s = ff) \/ exists p, s = p +:+ String sep ff.
Proof.
  revert ff. induction s as [|c s IH]; intros ff; simpl.
  - intros [= <-]. by left.
  - destruct (Ascii.eqb_spec c sep) as [->|Hc].
    + destruct (split_nonempty sep s) as (piece & pieces & Hs). rewrite Hs.
      rewrite last_cons_cons, <- Hs. intros [[_ ->]|[p ->]]%IH; right.
      * by exists "".
      * by exists (String sep p).
    + destruct (split_nonempty sep s) as (piece & pieces & Hs). rewrite Hs.
      destruct pieces as [|piece' pieces].
      * intros [= <-]. left. split; [done|].
        destruct (IH piece) as [[_ ->]|[p ->]]; [by rewrite Hs | done |].
        rewrite split_app in Hs.
        destruct (split_nonempty sep p) as (x & xs & Hp).
        destruct (split_nonempty sep piece) as (y & ys & Hy).
        rewrite Hp, Hy in Hs. by destruct xs.
      * rewrite last_cons_cons. intros Hlast.
        destruct (IH ff) as [[Hone _]|[p ->]]; [by rewrite Hs | congruence |].
        right. by exists (String c p).
Qed.

(** For an extension without a dot, the last piece of the name split at its
    dots is the extension exactly when the name is the extension or ends
    with a dot and the extension. *)
Lemma last_split_extension s ext :
  split "." ext = [ext] ->
  last (split "." s) = Some ext <-> s = ext \/ exists p, s = p +:+ String "." ext.
Proof.
  intros Hext. split.
  - intros [[_ ->]|Hp]%last_split_inv; auto.
  - intros [->|[p ->]]; [by rewrite Hext|].
    rewrite split_app, Hext. apply last_snoc.
Qed.

Lemma given_as_path_Some motif_file s :
  given_as_path motif_file = Some s <-> motif_file = PyStr s /\ s <> "".
Proof.
  destruct motif_file as [s'|]; simpl; [|split; [discriminate | by intros [? _]]].
  destruct (String.eqb_spec s' ""); split.
  - discriminate.
  - intros [[= ->] ?]. done.
  - by intros [= ->].
  - by intros [[= ->] _].
Qed.

Lemma append_cons_nonempty p c s : p +:+ String c s <> "".
Proof. by destruct p. Qed.

(** The last character slice is a slash exactly for a string that ends with
    a slash. *)
Lemma last_slice_slash path :
  last_slice path = "/" <-> exists d, path = d +:+ "/".
Proof.
  induction path as [|c path IH].
  - split; [discriminate|]. intros [d Hd]. by destruct (append_cons_nonempty d "/" "").
  - destruct path as [|c' path].
    + simpl. split.
      * intros [= ->]. by exists "".
      * intros [[|c'' [|? ?]] Hd]; by simplify_eq/=.
    + change (last_slice (String c (String c' path))) with (last_slice (String c' path)).
      rewrite IH. split.
      * intros [d ->]. by exists (String c d).
      * intros [[|c'' d] Hd]; [discriminate|].
        rewrite append_cons in Hd. injection Hd as -> Hd. by exists d.
Qed.

(** ** isJaspar_ff and isMEME_ff *)

(** X12.  [isJaspar_ff] holds exactly for a string that is [jaspar] itself
    or ends with [.jaspar]; it fails for every other string, the empty one
    included, and for anything that is not a string. *)
Theorem isJaspar_ff_true motif_file :
  isJaspar_ff motif_file = true <->
  exists s, motif_file = PyStr s /\ (s = "jaspar" \/ exists p, s = p +:+ ".jaspar").
Proof.
  unfold isJaspar_ff. split.
  - destruct (given_as_path motif_file) as [s|] eqn:Hs; [|discriminate].
    apply given_as_path_Some in Hs as [-> _].
    case_bool_decide as Hff; [|discriminate]. intros _. exists s. split; [done|].
    by apply (last_split_extension s "jaspar").
  - intros (s & -> & Hs).
    assert (Hne : given_as_path (PyStr s) = Some s).
    { apply given_as_path_Some. split; [done|].
      destruct Hs as [->|[p ->]]; [done | apply append_cons_nonempty]. }
    rewrite Hne. rewrite bool_decide_true; [done|].
    by apply (last_split_extension s "jaspar").
Qed.

(** X13.  [isMEME_ff] holds exactly for a string that is [meme] itself or
    ends with [.meme]. *)
Theorem isMEME_ff_true motif_file :
  isMEME_ff motif_file = true <->
  exists s, motif_file = PyStr s /\ (s = "meme" \/ exists p, s = p +:+ ".meme").
Proof.
  unfold isMEME_ff. split.
  - destruct (given_as_path motif_file) as [s|] eqn:Hs; [|discriminate].
    apply given_as_path_Some in Hs as [-> _].
    case_bool_decide as Hff; [|discriminate]. intros _. exists s. split; [done|].
    by apply (last_split_extension s "meme").
  - intros (s & -> & Hs).
    assert (Hne : given_as_path (PyStr s) = Some s).
    { apply given_as_path_Some. split; [done|].
      destruct Hs as [->|[p ->]]; [done | apply append_cons_nonempty]. }
    rewrite Hne. rewrite bool_decide_true; [done|].
    by apply (last_split_extension s "meme").
Qed.

(** X14.  No argument is accepted by both format checks. *)
Theorem isJaspar_ff_isMEME_ff_exclusive motif_file :
  isJaspar_ff motif_file && isMEME_ff motif_file = false.
Proof.
  unfold isJaspar_ff, isMEME_ff.
  destruct (given_as_path motif_file) as [s|]; [|done].
  repeat case_bool_decide; try done. congruence.
Qed.

(** ** correct_path *)

(** X15.  [correct_path] joins the path, the identifier and the format with
    exactly one separator added when the path does not end with a slash, and
    none when it does; so a path and the same path followed by one slash
    give the same result. *)
Theorem correct_path_separator path path_id file_format :
  ((exists d, path = d +:+ "/") ->
   correct_path path path_id file_format = path +:+ path_id +:+ file_format) /\
  (~ (exists d, path = d +:+ "/") ->
   correct_path path path_id file_format = path +:+ "/" +:+ path_id +:+ file_format /\
   correct_path (path +:+ "/") path_id file_format =
   correct_path path path_id file_format).
Proof.
  unfold correct_path. split.
  - intros Hd%last_slice_slash. by rewrite Hd.
  - intros Hd.
    assert (Hend : last_slice (path +:+ "/") = "/")
      by (apply last_slice_slash; eauto).
    rewrite Hend. simpl.
    destruct (String.eqb_spec (last_slice path) "/") as [Hs%last_slice_slash|_]; [done|].
    split; [done|]. apply append_assoc.
Qed.

Lemma correct_path_separator_witness :
  correct_path "results/" "MA0139.1" ".tsv" = "results/MA0139.1.tsv" /\
  correct_path "results" "MA0139.1" ".tsv" = "results/MA0139.1.tsv" /\
  correct_path ("results" +:+ "/") "MA0139.1" ".tsv" =
  correct_path "results" "MA0139.1" ".tsv".
Proof.
  split.
  - apply (proj1 (correct_path_separator "results/" "MA0139.1" ".tsv")).
    by exists "results".
  - apply (proj2 (correct_path_separator "results" "MA0139.1" ".tsv")).
    rewrite <- last_slice_slash. discriminate.
Defined.

(** ** almost_equal on values that are not numbers *)

Lemma is_nan_true x : is_nan x = true -> Prim2SF x = S754_nan.
Proof.
  unfold is_nan. rewrite FloatAxioms.eqb_spec. unfold SFeqb.
  destruct (Prim2SF x) as [s|s| |s m e]; simpl; [discriminate| |done|].
  - destruct s; discriminate.
  - destruct s; rewrite Z.compare_refl, Pos.compare_cont_refl; discriminate.
Qed.

Lemma Prim2SF_nan_is_nan x : Prim2SF x = S754_nan -> is_nan x = true.
Proof.
  intros Hx. unfold is_nan. rewrite FloatAxioms.eqb_spec, Hx. reflexivity.
Qed.

Lemma ltb_nan_l x y : is_nan x = true -> (x <? y)%float = false.
Proof. intros Hx%is_nan_true. rewrite FloatAxioms.ltb_spec, Hx. reflexivity. Qed.

Lemma ltb_nan_r x y : is_nan y = true -> (x <? y)%float = false.
Proof.
  intros Hy%is_nan_true. rewrite FloatAxioms.ltb_spec, Hy.
  by destruct (Prim2SF x).
Qed.

Lemma sub_nan x y : is_nan x = true \/ is_nan y = true -> is_nan (x - y) = true.
Proof.
  intros Hxy. apply Prim2SF_nan_is_nan. rewrite sub_spec.
  destruct Hxy as [Hx%is_nan_true|Hy%is_nan_true].
  - by rewrite Hx.
  - rewrite Hy. by destruct (Prim2SF x).
Qed.

Lemma add_nan x y : is_nan x = true \/ is_nan y = true -> is_nan (x + y) = true.
Proof.
  intros Hxy. apply Prim2SF_nan_is_nan. rewrite add_spec.
  destruct Hxy as [Hx%is_nan_true|Hy%is_nan_true].
  - by rewrite Hx.
  - rewrite Hy. by destruct (Prim2SF x).
Qed.

(** X16.  [almost_equal] answers [True] whenever one of its three arguments
    is not a number. *)
Theorem almost_equal_nan_true value1 value2 slope :
  is_nan value1 = true \/ is_nan value2 = true \/ is_nan slope = true ->
  almost_equal value1 value2 slope = true.
Proof.
  intros Hnan. unfold almost_equal, gtb.
  assert (Hcmp : is_nan value2 = true \/
                 is_nan (value1 - slope) = true /\ is_nan (value1 + slope) = true).
  { destruct Hnan as [Hn|[Hn|Hn]]; [right|by left|right];
      split; (apply sub_nan || apply add_nan); auto. }
  destruct Hcmp as [H2|[Hlo Hhi]].
  - by rewrite (ltb_nan_l value2 _ H2), (ltb_nan_r _ value2 H2).
  - by rewrite (ltb_nan_r _ (value1 - slope) Hlo), (ltb_nan_l (value1 + slope) _ Hhi).
Qed.

Lemma almost_equal_nan_true_witness : almost_equal nan 3.5 0.1 = true.
Proof. apply (almost_equal_nan_true nan 3.5 0.1). left. reflexivity. Defined.

(** ** More on list_data *)

Lemma getitem_to_list_Permutation data data' name :
  columns data ≡ₚ columns data' ->
  getitem_to_list data name = getitem_to_list data' name.
Proof.
  intros Hp. unfold getitem_to_list.
  pose proof (filter_Permutation (fun c : string * list cell => c.1 = name) _ _ Hp) as Hf.
  destruct (filter _ (columns data)) as [|c [|c' l]].
  - by apply Permutation_nil_l in Hf as <-.
  - by apply Permutation_singleton_l in Hf as <-.
  - apply Permutation_length in Hf.
    by destruct (filter _ (columns data')) as [|d [|d' l']].
Qed.

(** X17.  The summary does not depend on the order of the columns in the
    table: two frames with the same index whose columns are reorderings of
    each other give the same result, value or exception. *)
Theorem list_data_column_order data data' qvalue :
  columns data ≡ₚ columns data' -> index data = index data' ->
  list_data (PdDataFrame data) qvalue = list_data (PdDataFrame data') qvalue.
Proof.
  intros Hp Hidx. unfold list_data.
  rewrite (Permutation_length Hp), Hidx.
  by rewrite !(getitem_to_list_Permutation data data' _ Hp).
Qed.

Lemma list_data_column_order_witness :
  list_data (PdDataFrame {| columns := reverse (columns hits11); index := index hits11 |}) true =
  list_data (PdDataFrame hits11) true.
Proof.
  apply (list_data_column_order
           {| columns := reverse (columns hits11); index := index hits11 |} hits11 true).
  - apply reverse_Permutation.
  - reflexivity.
Defined.

Lemma getitem_to_list_not_AssertionError data name :
  getitem_to_list data name <> Raise AssertionError.
Proof.
  unfold getitem_to_list. by destruct (filter _ _) as [|c [|c' l]].
Qed.

Lemma list_data_Return_has_fields data qvalue summary :
  list_data (PdDataFrame data) qvalue = Return summary ->
  has_fields data (summary_fields qvalue) = true.
Proof.
  intros (_ & Hf & _)%list_data_Return_inv.
  unfold has_fields. apply forallb_forall. intros name Hin%list_elem_of_In.
  apply list_elem_of_lookup in Hin as [i Hi].
  destruct (Forall2_lookup_l _ _ _ _ _ Hf Hi) as (col & _ & ->). reflexivity.
Qed.

Lemma aligned_has_fields_Return data qvalue :
  aligned data = true ->
  10 <= length (columns data) <= 11 ->
  has_fields data (summary_fields qvalue) = true ->
  raises (list_data (PdDataFrame data) qvalue) = false.
Proof.
  intros Ha [H10 H11] Hf.
  assert (Hwf : well_formed data qvalue = true).
  { unfold well_formed. rewrite !andb_true_iff, !Nat.leb_le. tauto. }
  by destruct (well_formed_Return _ _ Hwf) as (summary & -> & _).
Qed.

(** X18.  On a frame whose columns are all as long as its index, as pandas
    builds them, [list_data] returns exactly when the table has 10 or 11
    columns and every field of the summary labels one column. *)
Theorem list_data_aligned_Return data qvalue :
  aligned data = true ->
  raises (list_data (PdDataFrame data) qvalue) = false <->
  10 <= length (columns data) <= 11 /\
  has_fields data (summary_fields qvalue) = true.
Proof.
  intros Ha. split.
  - intros [summary Hrun]%raises_false. split.
    + by apply list_data_Return_inv in Hrun as (Hn & _).
    + by eapply list_data_Return_has_fields.
  - intros [Hn Hf]. by apply aligned_has_fields_Return.
Qed.

Lemma list_data_aligned_Return_witness :
  raises (list_data (PdDataFrame hits11) true) = false <->
  10 <= length (columns hits11) <= 11 /\
  has_fields hits11 (summary_fields true) = true.
Proof. apply (list_data_aligned_Return hits11 true). reflexivity. Defined.

(** X19.  On such a frame the only assertion that can fail is the one on
    the column count: [list_data] raises [AssertionError] exactly when the
    table has fewer than 10 or more than 11 columns. *)
Theorem list_data_aligned_AssertionError data qvalue :
  aligned data = true ->
  list_data (PdDataFrame data) qvalue = Raise AssertionError <->
  length (columns data) < 10 \/ 11 < length (columns data).
Proof.
  intros Ha. split; [|apply list_data_column_count].
  intros Hrun.
  destruct (decide (10 <= length (columns data) <= 11)) as [Hn|Hn]; [|lia].
  destruct (has_fields data (summary_fields qvalue)) eqn:Hf.
  - assert (Hret : raises (list_data (PdDataFrame data) qvalue) = false)
      by (by apply aligned_has_fields_Return).
    by rewrite Hrun in Hret.
  - destruct (list_data_field_raises data qvalue Hn Hf) as (name & e & _ & Hget & Hrun').
    rewrite Hrun in Hrun'. injection Hrun' as <-.
    by destruct (getitem_to_list_not_AssertionError data name).
Qed.

Lemma list_data_aligned_AssertionError_witness :
  list_data (PdDataFrame hits12) true = Raise AssertionError <->
  length (columns hits12) < 10 \/ 11 < length (columns hits12).
Proof. apply (list_data_aligned_AssertionError hits12 true). reflexivity. Defined.

(** X20.  Every summary that [list_data] returns has 10 columns, or 11 with
    the q-values, and each of them other than the reference column (the
    tenth) is as long as the index of the table. *)
Theorem list_data_Return_lengths data qvalue summary :
  list_data (PdDataFrame data) qvalue = Return summary ->
  length summary = (if qvalue then 11 else 10) /\
  forall i col, summary !! i = Some col -> i <> 9 ->
    length col = length (index data).
Proof.
  intros (_ & Hf & Hchk)%list_data_Return_inv. split.
  - apply Forall2_length in Hf. rewrite <- Hf. by destruct qvalue.
  - intros i col Hi Hne.
    destruct (Forall2_lookup_r _ _ _ _ _ Hf Hi) as (name & Hname & Hget).
    apply (Hchk name col); [|done].
    destruct qvalue; simpl in Hname;
      do 11 (destruct i as [|i]; [simplify_eq/=; try elem_of_fields; done|]);
      done.
Qed.

Lemma list_data_Return_lengths_witness :
  length (map snd (columns hits10)) = 10 /\
  forall i col, map snd (columns hits10) !! i = Some col -> i <> 9 ->
    length col = length (index hits10).
Proof. apply (list_data_Return_lengths hits10 false). reflexivity. Defined.
